(** * Executor implementation descriptors of the intel_cpu plugin

    A shallow embedding of
    [src/plugins/intel_cpu/src/nodes/executors/executor_implementation.hpp]
    (the class template [ExecutorImplementation<Attrs>]) and of the selection
    pass that walks a priority-ordered list of such descriptors. *)

From Stdlib Require Import String List Arith Lia Bool.
Import ListNotations.

(** ** Types the header takes from its includes *)

(** Modelled from the spec: the enum [ShapeTolerance] is declared in
    [nodes/executors/executor.hpp], which is not among the sources.  The
    header names the enumerator [ShapeTolerance::Agnostic]; the spec gives the
    enum its two values, [ShapeAgnostic] and [ShapeDependent]. *)
Module ShapeTolerance.

Inductive t : Type :=
| Agnostic
| Dependent.

(** [operator==] of the enum class. *)
Definition eqb (a b : t) : bool :=
  match a, b with
  | Agnostic, Agnostic => true
  | Dependent, Dependent => true
  | _, _ => false
  end.

End ShapeTolerance.

(** Modelled from the spec: [ov::optional<T>] comes from [ov_optional.hpp],
    which is not among the sources.  The spec maps it to a sum type
    ([Some(Config) | None]); [has_value] is its conversion to [bool]. *)
Definition has_value {A : Type} (o : option A) : bool :=
  match o with
  | Some _ => true
  | None => false
  end.

(** ** The descriptor *)

Section Descriptor.

(** [Attrs] is the template parameter.  [executor::Config<Attrs>],
    [MemoryArgs], [PostOps], [ExecutorContext::CPtr], [Executor],
    [ExecutorType] and [OperationType] are declared by the included headers
    and are opaque to this one. *)
Variables Attrs Config MemoryArgs PostOps ExecutorContext Executor : Type.
Variables ExecutorType OperationType : Type.

(** [ExecutorPtr] is a [std::shared_ptr<Executor>]: [None] is [nullptr]. *)
Definition ExecutorPtr : Type := option Executor.

(** The private members, in declaration order.  A [std::function] member is
    an [option]: [None] is the empty function object, which converts to
    [false] in [if (m_supports)].  Here a target is a plain function of its
    arguments; [Stateful] below gives targets state of their own. *)
Record ExecutorImplementation : Type := mkExecutorImplementation {
  m_name : string;
  m_type : ExecutorType;
  m_operationType : OperationType;
  m_shapeRelation : ShapeTolerance.t;
  m_supports : option (Config -> bool);
  m_requiresFallback : option (Config -> option Config);
  m_acceptsShape : option (MemoryArgs -> bool);
  m_create :
    option (Attrs -> PostOps -> MemoryArgs -> ExecutorContext -> ExecutorPtr)
}.

Definition supports (this : ExecutorImplementation) (config : Config) : bool :=
  match m_supports this with
  | Some f => f config
  | None => false
  end.

Definition requiresFallback (this : ExecutorImplementation) (config : Config)
  : option Config :=
  match m_requiresFallback this with
  | Some f => f config
  | None => None
  end.

Definition acceptsShapes (this : ExecutorImplementation) (memory : MemoryArgs)
  : bool :=
  match m_acceptsShape this with
  | Some f => f memory
  | None => false
  end.

Definition create (this : ExecutorImplementation) (attrs : Attrs)
  (postOps : PostOps) (memory : MemoryArgs) (context : ExecutorContext)
  : ExecutorPtr :=
  match m_create this with
  | Some f => f attrs postOps memory context
  | None => None
  end.

Definition shapeAgnostic (this : ExecutorImplementation) : bool :=
  ShapeTolerance.eqb (m_shapeRelation this) ShapeTolerance.Agnostic.

Definition name (this : ExecutorImplementation) : string := m_name this.

Definition type (this : ExecutorImplementation) : ExecutorType := m_type this.

Definition operationType (this : ExecutorImplementation) : OperationType :=
  m_operationType this.

(** *** Member calls as state transformers

    To speak about what a call does to the object, a member function is
    read as a function from the object before the call to the returned value
    and the object after it.  With plain functions as targets no call has
    anything to change; what calls do to targets that hold state is the
    subject of [Stateful]. *)

Definition Method (A : Type) : Type :=
  ExecutorImplementation -> A * ExecutorImplementation.

(** Every member function of the class is declared [const]: over plain
    functions it reads [this] and hands it back as it found it. *)
Definition const_member {A : Type} (body : ExecutorImplementation -> A)
  : Method A :=
  fun this => (body this, this).

(** One call on the public interface, with its arguments. *)
Inductive Call : Type :=
| call_supports (config : Config)
| call_requiresFallback (config : Config)
| call_acceptsShapes (memory : MemoryArgs)
| call_create (attrs : Attrs) (postOps : PostOps) (memory : MemoryArgs)
    (context : ExecutorContext)
| call_shapeAgnostic
| call_name
| call_type
| call_operationType.

(** What a call returns. *)
Inductive Ret : Type :=
| ret_bool (b : bool)
| ret_config (c : option Config)
| ret_executor (e : ExecutorPtr)
| ret_name (s : string)
| ret_type (t : ExecutorType)
| ret_operationType (o : OperationType).

Definition invoke (c : Call) : Method Ret :=
  match c with
  | call_supports config =>
      const_member (fun this => ret_bool (supports this config))
  | call_requiresFallback config =>
      const_member (fun this => ret_config (requiresFallback this config))
  | call_acceptsShapes memory =>
      const_member (fun this => ret_bool (acceptsShapes this memory))
  | call_create attrs postOps memory context =>
      const_member
        (fun this => ret_executor (create this attrs postOps memory context))
  | call_shapeAgnostic =>
      const_member (fun this => ret_bool (shapeAgnostic this))
  | call_name => const_member (fun this => ret_name (name this))
  | call_type => const_member (fun this => ret_type (type this))
  | call_operationType =>
      const_member (fun this => ret_operationType (operationType this))
  end.

(** A sequence of calls, each on the object the previous one left. *)
Fixpoint invokeAll (cs : list Call) : Method (list Ret) :=
  fun this =>
    match cs with
    | [] => ([], this)
    | c :: rest =>
        let (r, this1) := invoke c this in
        let (rs, this2) := invokeAll rest this1 in
        (r :: rs, this2)
    end.

End Descriptor.

Arguments mkExecutorImplementation {Attrs Config MemoryArgs PostOps
  ExecutorContext Executor ExecutorType OperationType}.
Arguments m_name {_ _ _ _ _ _ _ _} _.
Arguments m_type {_ _ _ _ _ _ _ _} _.
Arguments m_operationType {_ _ _ _ _ _ _ _} _.
Arguments m_shapeRelation {_ _ _ _ _ _ _ _} _.
Arguments m_supports {_ _ _ _ _ _ _ _} _.
Arguments m_requiresFallback {_ _ _ _ _ _ _ _} _.
Arguments m_acceptsShape {_ _ _ _ _ _ _ _} _.
Arguments m_create {_ _ _ _ _ _ _ _} _.
Arguments supports {_ _ _ _ _ _ _ _} this config.
Arguments requiresFallback {_ _ _ _ _ _ _ _} this config.
Arguments acceptsShapes {_ _ _ _ _ _ _ _} this memory.
Arguments create {_ _ _ _ _ _ _ _} this attrs postOps memory context.
Arguments shapeAgnostic {_ _ _ _ _ _ _ _} this.
Arguments name {_ _ _ _ _ _ _ _} this.
Arguments type {_ _ _ _ _ _ _ _} this.
Arguments operationType {_ _ _ _ _ _ _ _} this.
Arguments invoke {_ _ _ _ _ _ _ _} c this.
Arguments invokeAll {_ _ _ _ _ _ _ _} cs this.

(** ** The selection pass

    The pass that walks the descriptors lives in the operation layer's
    factory, which is not among the sources; it is taken from section 4.2.
    Descriptors are identified by their position in the list, and every call
    of one of the four capability operations is recorded, the way call
    counters on mock descriptors would record it. *)

Inductive Capability : Type :=
| CallSupports
| CallRequiresFallback
| CallAcceptsShapes
| CallCreate.

Definition Capability_eq_dec (a b : Capability) : {a = b} + {a <> b}.
Proof. decide equality. Defined.

(** A computation together with the capability calls it made, in order. *)
Definition Traced (A : Type) : Type := (A * list Capability)%type.

Definition ret {A : Type} (a : A) : Traced A := (a, []).

Definition bind {A B : Type} (m : Traced A) (k : A -> Traced B) : Traced B :=
  let (a, before) := m in
  let (b, after) := k a in
  (b, before ++ after).

(** [call c v]: the capability [c] is called and answers [v]. *)
Definition call {A : Type} (c : Capability) (answer : A) : Traced A :=
  (answer, [c]).

Notation "x <- m ;; k" := (bind m (fun x => k))
  (at level 61, m at next level, right associativity).

(** Why a candidate was passed over (section 7 and the per-candidate state
    machine of section 4.2). *)
Inductive Rejection : Type :=
| Unsupported
| ShapeRejected
| CreateFailed.

(** The calls made on the descriptor at one position: one entry per
    descriptor evaluation. *)
Definition Log : Type := list (nat * list Capability).

(** How often capability [c] of the descriptor at position [j] was called. *)
Definition countCalls (j : nat) (c : Capability) (log : Log) : nat :=
  list_sum
    (map (fun entry =>
            if Nat.eqb (fst entry) j
            then count_occ Capability_eq_dec (snd entry) c
            else 0)
         log).

Section Selection.

Variables Attrs Config MemoryArgs PostOps ExecutorContext Executor : Type.
Variables ExecutorType OperationType : Type.

Let Impl : Type :=
  ExecutorImplementation Attrs Config MemoryArgs PostOps ExecutorContext
    Executor ExecutorType OperationType.

Inductive Outcome : Type :=
| Rejected (why : Rejection)
| Created (executor : Executor) (used : Config).

(** Success hands the caller the executor and the config used; failure names
    the descriptors tried and why each was passed over. *)
Inductive Selection : Type :=
| Selected (executor : Executor) (used : Config)
| NoApplicableImplementation (tried : list (string * Rejection)).

(** The attributes a config stands for ("the replacement Config's derived
    attributes"). *)
Variable configAttrs : Config -> Attrs.

(** The inputs of one selection call. *)
Variable config : Config.
Variable memory : MemoryArgs.
Variable attrs : Attrs.
Variable postOps : PostOps.
Variable context : ExecutorContext.

(** Modelled from the spec: step 1b, the config in effect for a candidate
    once [requiresFallback] has answered. *)
Definition effectiveConfig (fallback : option Config) : Config :=
  match fallback with
  | Some replacement => replacement
  | None => config
  end.

(** Modelled from the spec: step 1b, the attributes [create] is given: those
    derived from the replacement when there is one, the caller's otherwise. *)
Definition effectiveAttrs (fallback : option Config) : Attrs :=
  match fallback with
  | Some replacement => configAttrs replacement
  | None => attrs
  end.

(** Modelled from the spec: steps 1a to 1d of section 4.2 for one candidate;
    the factory that runs them is not among the sources.  Every candidate is
    asked about the caller's config: a replacement is in effect only for the
    candidate that asked for it.  The shape check is skipped for a
    descriptor that reports [shapeAgnostic()], the only view of the shape
    tolerance the class gives. *)
Definition evaluate (d : Impl) : Traced Outcome :=
  supported <- call CallSupports (supports d config) ;;
  if supported then
    fallback <- call CallRequiresFallback (requiresFallback d config) ;;
    shapesOk <- (if shapeAgnostic d
                 then ret true
                 else call CallAcceptsShapes (acceptsShapes d memory)) ;;
    if shapesOk then
      executor <- call CallCreate
                    (create d (effectiveAttrs fallback) postOps memory context) ;;
      match executor with
      | Some e => ret (Created e (effectiveConfig fallback))
      | None => ret (Rejected CreateFailed)
      end
    else ret (Rejected ShapeRejected)
  else ret (Rejected Unsupported).

(** Modelled from the spec: the loop of section 4.2 over the descriptors from
    position [i] on, [tried] being the candidates already passed over. *)
Fixpoint selectFrom (i : nat) (impls : list Impl)
  (tried : list (string * Rejection)) : Selection * Log :=
  match impls with
  | [] => (NoApplicableImplementation tried, [])
  | d :: rest =>
      let (outcome, calls) := evaluate d in
      match outcome with
      | Created e used => (Selected e used, [(i, calls)])
      | Rejected why =>
          let (result, log) :=
            selectFrom (S i) rest (tried ++ [(name d, why)]) in
          (result, (i, calls) :: log)
      end
  end.

(** Modelled from the spec: the selection algorithm of section 4.2. *)
Definition select (impls : list Impl) : Selection * Log :=
  selectFrom 0 impls [].

(** Modelled from the spec: a candidate is rejected on support, on shape (a
    shape-dependent one only, step 1c) or on creation. *)
Definition rejects (d : Impl) : Prop :=
  supports d config = false
  \/ (shapeAgnostic d = false /\ acceptsShapes d memory = false)
  \/ create d (effectiveAttrs (requiresFallback d config)) postOps memory
       context = None.

End Selection.

Arguments Rejected {Config Executor} why.
Arguments Created {Config Executor} executor used.
Arguments Selected {Config Executor} executor used.
Arguments NoApplicableImplementation {Config Executor} tried.
Arguments effectiveConfig {Config} config fallback.
Arguments effectiveAttrs {Attrs Config} configAttrs attrs fallback.
Arguments evaluate {_ _ _ _ _ _ _ _} configAttrs config memory attrs postOps
  context d.
Arguments selectFrom {_ _ _ _ _ _ _ _} configAttrs config memory attrs postOps
  context i impls tried.
Arguments select {_ _ _ _ _ _ _ _} configAttrs config memory attrs postOps
  context impls.
Arguments rejects {_ _ _ _ _ _ _ _} configAttrs config memory attrs postOps
  context d.
Arguments call_supports {_ _ _ _ _} config.
Arguments call_requiresFallback {_ _ _ _ _} config.
Arguments call_acceptsShapes {_ _ _ _ _} memory.
Arguments call_create {_ _ _ _ _} attrs postOps memory context.
Arguments call_shapeAgnostic {_ _ _ _ _}.
Arguments call_name {_ _ _ _ _}.
Arguments call_type {_ _ _ _ _}.
Arguments call_operationType {_ _ _ _ _}.
Arguments ret_bool {_ _ _ _} b.
Arguments ret_config {_ _ _ _} c.
Arguments ret_executor {_ _ _ _} e.
Arguments ret_name {_ _ _ _} s.
Arguments ret_type {_ _ _ _} t.
Arguments ret_operationType {_ _ _ _} o.

(** ** Mock descriptors

    Concrete descriptors over small types, in the manner of the scenarios of
    section 8: a config and the attributes are numbers, the memory
    descriptors a list of dimensions, an executor is known by its label. *)
Module Mock.

Definition Impl : Type :=
  ExecutorImplementation nat nat (list nat) unit unit string nat nat.

(** A descriptor whose four callables answer with constants. *)
Definition descriptor (label : string) (tolerance : ShapeTolerance.t)
  (supported : bool) (fallback : option nat) (shapesOk : bool)
  (made : option string) : Impl :=
  mkExecutorImplementation label 1 2 tolerance
    (Some (fun _ => supported))
    (Some (fun _ => fallback))
    (Some (fun _ => shapesOk))
    (Some (fun _ _ _ _ => made)).

(** A descriptor constructed with four empty function objects. *)
Definition bare : Impl :=
  mkExecutorImplementation "bare"%string 1 2 ShapeTolerance.Dependent
    None None None None.

(** Selection with config [7], memory [[2; 3]] and attributes [7]; the
    attributes of a config are the config itself. *)
Definition run (impls : list Impl) : Selection nat string * Log :=
  select (fun c : nat => c) 7 [2; 3] 7 tt tt impls.

Definition rejected (d : Impl) : Prop :=
  rejects (fun c : nat => c) 7 [2; 3] 7 tt tt d.

(** The descriptors of scenarios A to D. *)
Definition unsupported : Impl :=
  descriptor "unsupported" ShapeTolerance.Dependent false None true
    (Some "never"%string).

Definition working : Impl :=
  descriptor "working" ShapeTolerance.Dependent true None true
    (Some "ExecutorX"%string).

Definition viaFallback : Impl :=
  descriptor "viaFallback" ShapeTolerance.Dependent true (Some 9) true
    (Some "ExecutorY"%string).

Definition shapeRejecting : Impl :=
  descriptor "shapeRejecting" ShapeTolerance.Dependent true None false
    (Some "never"%string).

Definition failing : Impl :=
  descriptor "failing" ShapeTolerance.Dependent true None true None.

(** A shape-agnostic descriptor whose [acceptsShapes] would say no. *)
Definition agnostic : Impl :=
  descriptor "agnostic" ShapeTolerance.Agnostic true None false
    (Some "ExecutorA"%string).

End Mock.

(** Descriptors that differ from [Mock.bare] in one respect each. *)
Module Stub.

(** Named and tagged as [Mock.bare], with four callables that are set and
    answer what an empty function object makes the class answer. *)
Definition silent : Mock.Impl :=
  Mock.descriptor "bare" ShapeTolerance.Dependent false None false None.

(** No [supports] and no [acceptsShape] callable, but a fallback and a
    factory that both answer. *)
Definition ungated : Mock.Impl :=
  mkExecutorImplementation "ungated"%string 1 2 ShapeTolerance.Agnostic
    None
    (Some (fun c : nat => Some (S c)))
    None
    (Some (fun (a : nat) (_ : unit) (_ : list nat) (_ : unit) =>
             Some "made"%string)).

(** A sequence that uses every member function once. *)
Definition everyCall : list (Call nat nat (list nat) unit unit) :=
  [call_supports 7; call_requiresFallback 7; call_acceptsShapes [2; 3];
   call_create 7 tt [2; 3] tt; call_shapeAgnostic; call_name; call_type;
   call_operationType].

End Stub.

(** ** Function objects that carry state

    A [std::function] owns a copy of its target.  Its call operator is
    [const], yet it runs the target as a non-const object, so a target (a
    lambda declared [mutable], a functor with members) can change what it
    holds every time a [const] member function of the class calls it; and a
    target can reach state outside itself (the heap a factory allocates
    from, objects captured by reference).  This module gives the stored
    callables both kinds of state. *)
Module Stateful.

Section Descriptor.

Variables Attrs Config MemoryArgs PostOps ExecutorContext Executor : Type.
Variables ExecutorType OperationType : Type.

(** What a target holds by value: the members of the closure object. *)
Variable Captures : Type.

(** What a target can reach outside the descriptor. *)
Variable World : Type.

(** The target of a non-empty [std::function<R(A)>]: what it holds and its
    call operator, which answers and leaves new captures and a new world. *)
Record Target (A R : Type) : Type := mkTarget {
  captures : Captures;
  operator_call : Captures -> A -> World -> R * Captures * World
}.

Arguments mkTarget {A R} captures operator_call.
Arguments captures {A R} _.
Arguments operator_call {A R} _ _ _ _.

(** [f(a)] on a stored function object: the target runs on its own captures
    and stays in place with the captures it leaves. *)
Definition run {A R : Type} (f : Target A R) (a : A) (w : World)
  : R * Target A R * World :=
  let '(r, held, w') := operator_call f (captures f) a w in
  (r, mkTarget held (operator_call f), w').

(** The four arguments of [create]. *)
Definition CreateArgs : Type :=
  (Attrs * PostOps * MemoryArgs * ExecutorContext)%type.

(** The private members; [None] is the empty function object. *)
Record ExecutorImplementation : Type := mkExecutorImplementation {
  m_name : string;
  m_type : ExecutorType;
  m_operationType : OperationType;
  m_shapeRelation : ShapeTolerance.t;
  m_supports : option (Target Config bool);
  m_requiresFallback : option (Target Config (option Config));
  m_acceptsShape : option (Target MemoryArgs bool);
  m_create : option (Target CreateArgs (ExecutorPtr Executor))
}.

(** The object with one function object in the state its call left it. *)
Definition with_supports (this : ExecutorImplementation)
  (f : Target Config bool) : ExecutorImplementation :=
  mkExecutorImplementation (m_name this) (m_type this) (m_operationType this)
    (m_shapeRelation this) (Some f) (m_requiresFallback this)
    (m_acceptsShape this) (m_create this).

Definition with_requiresFallback (this : ExecutorImplementation)
  (f : Target Config (option Config)) : ExecutorImplementation :=
  mkExecutorImplementation (m_name this) (m_type this) (m_operationType this)
    (m_shapeRelation this) (m_supports this) (Some f)
    (m_acceptsShape this) (m_create this).

Definition with_acceptsShape (this : ExecutorImplementation)
  (f : Target MemoryArgs bool) : ExecutorImplementation :=
  mkExecutorImplementation (m_name this) (m_type this) (m_operationType this)
    (m_shapeRelation this) (m_supports this) (m_requiresFallback this)
    (Some f) (m_create this).

Definition with_create (this : ExecutorImplementation)
  (f : Target CreateArgs (ExecutorPtr Executor)) : ExecutorImplementation :=
  mkExecutorImplementation (m_name this) (m_type this) (m_operationType this)
    (m_shapeRelation this) (m_supports this) (m_requiresFallback this)
    (m_acceptsShape this) (Some f).

(** A member function: from the object and the world before the call to the
    returned value, the object and the world after it. *)
Definition Method (A : Type) : Type :=
  ExecutorImplementation -> World -> A * ExecutorImplementation * World.

Definition supports (config : Config) : Method bool :=
  fun this w =>
    match m_supports this with
    | Some f =>
        let '(r, f', w') := run f config w in (r, with_supports this f', w')
    | None => (false, this, w)
    end.

Definition requiresFallback (config : Config) : Method (option Config) :=
  fun this w =>
    match m_requiresFallback this with
    | Some f =>
        let '(r, f', w') := run f config w in
        (r, with_requiresFallback this f', w')
    | None => (None, this, w)
    end.

Definition acceptsShapes (memory : MemoryArgs) : Method bool :=
  fun this w =>
    match m_acceptsShape this with
    | Some f =>
        let '(r, f', w') := run f memory w in
        (r, with_acceptsShape this f', w')
    | None => (false, this, w)
    end.

Definition create (attrs : Attrs) (postOps : PostOps) (memory : MemoryArgs)
  (context : ExecutorContext) : Method (ExecutorPtr Executor) :=
  fun this w =>
    match m_create this with
    | Some f =>
        let '(r, f', w') := run f (attrs, postOps, memory, context) w in
        (r, with_create this f', w')
    | None => (None, this, w)
    end.

(** The four accessors call no function object. *)
Definition shapeAgnostic : Method bool :=
  fun this w =>
    (ShapeTolerance.eqb (m_shapeRelation this) ShapeTolerance.Agnostic,
     this, w).

Definition name : Method string := fun this w => (m_name this, this, w).

Definition type : Method ExecutorType := fun this w => (m_type this, this, w).

Definition operationType : Method OperationType :=
  fun this w => (m_operationType this, this, w).

(** [m] with its answer wrapped by [wrap]. *)
Definition answering {A B : Type} (wrap : A -> B) (m : Method A) : Method B :=
  fun this w => let '(r, this', w') := m this w in (wrap r, this', w').

Definition invoke (c : Call Attrs Config MemoryArgs PostOps ExecutorContext)
  : Method (Ret Config Executor ExecutorType OperationType) :=
  match c with
  | call_supports config => answering ret_bool (supports config)
  | call_requiresFallback config =>
      answering ret_config (requiresFallback config)
  | call_acceptsShapes memory => answering ret_bool (acceptsShapes memory)
  | call_create attrs postOps memory context =>
      answering ret_executor (create attrs postOps memory context)
  | call_shapeAgnostic => answering ret_bool shapeAgnostic
  | call_name => answering ret_name name
  | call_type => answering ret_type type
  | call_operationType => answering ret_operationType operationType
  end.

(** A sequence of calls, each on the object and the world the previous one
    left. *)
Fixpoint invokeAll
  (cs : list (Call Attrs Config MemoryArgs PostOps ExecutorContext))
  : Method (list (Ret Config Executor ExecutorType OperationType)) :=
  fun this w =>
    match cs with
    | [] => ([], this, w)
    | c :: rest =>
        let '(r, this1, w1) := invoke c this w in
        let '(rs, this2, w2) := invokeAll rest this1 w1 in
        (r :: rs, this2, w2)
    end.

(** *** Targets that behave *)

(** The target leaves its captures as they were, whatever they are. *)
Definition keeps_captures {A R : Type} (f : Target A R) : Prop :=
  forall (held : Captures) (a : A) (w : World),
    snd (fst (operator_call f held a w)) = held.

(** The target leaves its captures and the world as they were. *)
Definition quiet {A R : Type} (f : Target A R) : Prop :=
  forall (held : Captures) (a : A) (w : World),
    snd (fst (operator_call f held a w)) = held
    /\ snd (operator_call f held a w) = w.

(** [P] of the target of a function object, if it has one. *)
Definition ifSet {A R : Type} (P : Target A R -> Prop)
  (f : option (Target A R)) : Prop :=
  match f with
  | Some target => P target
  | None => True
  end.

(** No stored target changes its captures. *)
Definition stateless (this : ExecutorImplementation) : Prop :=
  ifSet keeps_captures (m_supports this)
  /\ ifSet keeps_captures (m_requiresFallback this)
  /\ ifSet keeps_captures (m_acceptsShape this)
  /\ ifSet keeps_captures (m_create this).

(** No stored target changes its captures or the world. *)
Definition sideEffectFree (this : ExecutorImplementation) : Prop :=
  ifSet quiet (m_supports this)
  /\ ifSet quiet (m_requiresFallback this)
  /\ ifSet quiet (m_acceptsShape this)
  /\ ifSet quiet (m_create this).

(** The call operator a function object would run, if it has a target. *)
Definition code {A R : Type} (f : option (Target A R))
  : option (Captures -> A -> World -> R * Captures * World) :=
  match f with
  | Some target => Some (operator_call target)
  | None => None
  end.

(** [after] has the members of [this], apart from what the targets hold:
    the same name, types and shape tolerance, and in each function object
    no target or the target with the same call operator. *)
Definition sameMembers (this after : ExecutorImplementation) : Prop :=
  m_name after = m_name this
  /\ m_type after = m_type this
  /\ m_operationType after = m_operationType this
  /\ m_shapeRelation after = m_shapeRelation this
  /\ code (m_supports after) = code (m_supports this)
  /\ code (m_requiresFallback after) = code (m_requiresFallback this)
  /\ code (m_acceptsShape after) = code (m_acceptsShape this)
  /\ code (m_create after) = code (m_create this).

End Descriptor.

Arguments sameMembers {_ _ _ _ _ _ _ _ _ _} this after.
Arguments with_supports {_ _ _ _ _ _ _ _ _ _} this f.
Arguments with_requiresFallback {_ _ _ _ _ _ _ _ _ _} this f.
Arguments with_acceptsShape {_ _ _ _ _ _ _ _ _ _} this f.
Arguments with_create {_ _ _ _ _ _ _ _ _ _} this f.
Arguments mkTarget {Captures World A R} captures operator_call.
Arguments captures {Captures World A R} _.
Arguments operator_call {Captures World A R} _ _ _ _.
Arguments run {Captures World A R} f a w.
Arguments mkExecutorImplementation {Attrs Config MemoryArgs PostOps
  ExecutorContext Executor ExecutorType OperationType Captures World}.
Arguments m_name {_ _ _ _ _ _ _ _ _ _} _.
Arguments m_type {_ _ _ _ _ _ _ _ _ _} _.
Arguments m_operationType {_ _ _ _ _ _ _ _ _ _} _.
Arguments m_shapeRelation {_ _ _ _ _ _ _ _ _ _} _.
Arguments m_supports {_ _ _ _ _ _ _ _ _ _} _.
Arguments m_requiresFallback {_ _ _ _ _ _ _ _ _ _} _.
Arguments m_acceptsShape {_ _ _ _ _ _ _ _ _ _} _.
Arguments m_create {_ _ _ _ _ _ _ _ _ _} _.
Arguments supports {_ _ _ _ _ _ _ _ _ _} config this w.
Arguments requiresFallback {_ _ _ _ _ _ _ _ _ _} config this w.
Arguments acceptsShapes {_ _ _ _ _ _ _ _ _ _} memory this w.
Arguments create {_ _ _ _ _ _ _ _ _ _} attrs postOps memory context this w.
Arguments shapeAgnostic {_ _ _ _ _ _ _ _ _ _} this w.
Arguments name {_ _ _ _ _ _ _ _ _ _} this w.
Arguments type {_ _ _ _ _ _ _ _ _ _} this w.
Arguments operationType {_ _ _ _ _ _ _ _ _ _} this w.
Arguments invoke {_ _ _ _ _ _ _ _ _ _} c this w.
Arguments invokeAll {_ _ _ _ _ _ _ _ _ _} cs this w.
Arguments keeps_captures {Captures World A R} f.
Arguments quiet {Captures World A R} f.
Arguments ifSet {Captures World A R} P f.
Arguments stateless {_ _ _ _ _ _ _ _ _ _} this.
Arguments sideEffectFree {_ _ _ _ _ _ _ _ _ _} this.
Arguments code {Captures World A R} f.

(** *** Descriptors with state, over the types of the mock descriptors

    The captures and the world are counters. *)
Definition Impl : Type :=
  ExecutorImplementation nat nat (list nat) unit unit string nat nat nat nat.

(** A [supports] that counts its calls in its captures and says [true] from
    the second call on, as [[n = 0](const Config&) mutable { return n++ > 0; }]
    does. *)
Definition counting : Impl :=
  mkExecutorImplementation "counting"%string 1 2 ShapeTolerance.Dependent
    (Some (mkTarget 0 (fun held _ w => (Nat.ltb 0 held, S held, w))))
    None None None.

(** A factory that draws a new executor from the world on every call, as
    [std::make_shared] does, and holds nothing itself. *)
Definition allocating : Impl :=
  mkExecutorImplementation "allocating"%string 1 2 ShapeTolerance.Agnostic
    None None None
    (Some (mkTarget 0
             (fun held _ w =>
                (Some (String.append "executor#"
                         (String (Ascii.ascii_of_nat (48 + w)) EmptyString)),
                 held, S w)))).

(** The callables of [Mock.working] as targets: they answer with constants
    and change nothing. *)
Definition constant : Impl :=
  mkExecutorImplementation "working"%string 1 2 ShapeTolerance.Dependent
    (Some (mkTarget 0 (fun held _ w => (true, held, w))))
    (Some (mkTarget 0 (fun held _ w => (None, held, w))))
    (Some (mkTarget 0 (fun held _ w => (true, held, w))))
    (Some (mkTarget 0 (fun held _ w => (Some "ExecutorX"%string, held, w)))).

(** [constant] with other captures in every target. *)
Definition reheld : Impl :=
  mkExecutorImplementation "working"%string 1 2 ShapeTolerance.Dependent
    (Some (mkTarget 5 (fun held _ w => (true, held, w))))
    (Some (mkTarget 6 (fun held _ w => (None, held, w))))
    (Some (mkTarget 7 (fun held _ w => (true, held, w))))
    (Some (mkTarget 8 (fun held _ w => (Some "ExecutorX"%string, held, w)))).

End Stateful.

(** *** Plain functions as targets *)

Section Plain.

Variables Attrs Config MemoryArgs PostOps ExecutorContext Executor : Type.
Variables ExecutorType OperationType : Type.
Variables Captures World : Type.

(** A function as a target: it holds [held], answers as the function does
    and changes nothing. *)
Definition plainTarget {A R : Type} (held : Captures) (f : A -> R)
  : Stateful.Target Captures World A R :=
  Stateful.mkTarget held (fun h a w => (f a, h, w)).

(** A descriptor over plain functions as a descriptor over targets. *)
Definition ofPlain (held : Captures)
  (d : ExecutorImplementation Attrs Config MemoryArgs PostOps ExecutorContext
         Executor ExecutorType OperationType)
  : Stateful.ExecutorImplementation Attrs Config MemoryArgs PostOps
      ExecutorContext Executor ExecutorType OperationType Captures World :=
  Stateful.mkExecutorImplementation (m_name d) (m_type d) (m_operationType d)
    (m_shapeRelation d)
    (option_map (plainTarget held) (m_supports d))
    (option_map (plainTarget held) (m_requiresFallback d))
    (option_map (plainTarget held) (m_acceptsShape d))
    (option_map
       (fun f =>
          plainTarget held
            (fun args : Attrs * PostOps * MemoryArgs * ExecutorContext =>
               let '(attrs, postOps, memory, context) := args in
               f attrs postOps memory context))
       (m_create d)).

End Plain.

Arguments plainTarget {Captures World A R} held f.
Arguments ofPlain {_ _ _ _ _ _ _ _ Captures World} held d.

(** ** Properties of the descriptor *)

Section DescriptorProperties.

Variables Attrs Config MemoryArgs PostOps ExecutorContext Executor : Type.
Variables ExecutorType OperationType : Type.

Let Impl : Type :=
  ExecutorImplementation Attrs Config MemoryArgs PostOps ExecutorContext
    Executor ExecutorType OperationType.

Let SupportsFn : Type := option (Config -> bool).
Let FallbackFn : Type := option (Config -> option Config).
Let ShapeFn : Type := option (MemoryArgs -> bool).
Let CreateFn : Type :=
  option (Attrs -> PostOps -> MemoryArgs -> ExecutorContext
          -> ExecutorPtr Executor).

(** C1: a descriptor constructed with an empty [supports] function object
    answers [false] to [supports(config)] for every config. *)
Theorem supports_unset_is_false :
  forall (label : string) (ty : ExecutorType) (op : OperationType)
         (shape : ShapeTolerance.t) (fallbackFn : FallbackFn)
         (shapeFn : ShapeFn) (createFn : CreateFn) (config : Config),
    supports
      (mkExecutorImplementation label ty op shape None fallbackFn shapeFn
         createFn)
      config
    = false.
Proof.
  intros. unfold supports. cbn [m_supports]. reflexivity.
Qed.

(** C2: a descriptor constructed with an empty [acceptsShape] function
    object answers [false] to [acceptsShapes(memory)] for every set of memory
    descriptors. *)
Theorem acceptsShapes_unset_is_false :
  forall (label : string) (ty : ExecutorType) (op : OperationType)
         (shape : ShapeTolerance.t) (supportsFn : SupportsFn)
         (fallbackFn : FallbackFn) (createFn : CreateFn)
         (memory : MemoryArgs),
    acceptsShapes
      (mkExecutorImplementation label ty op shape supportsFn fallbackFn None
         createFn)
      memory
    = false.
Proof.
  intros. unfold acceptsShapes. cbn [m_acceptsShape]. reflexivity.
Qed.

(** C3: a descriptor constructed with an empty [create] function object
    returns the null [ExecutorPtr] from [create] for every input: the call
    returns, the object is left as it was, and the pointer holds no
    executor, a default one included. *)
Theorem create_unset_is_null :
  forall (label : string) (ty : ExecutorType) (op : OperationType)
         (shape : ShapeTolerance.t) (supportsFn : SupportsFn)
         (fallbackFn : FallbackFn) (shapeFn : ShapeFn)
         (attrs : Attrs) (postOps : PostOps) (memory : MemoryArgs)
         (context : ExecutorContext),
    let d : Impl :=
      mkExecutorImplementation label ty op shape supportsFn fallbackFn
        shapeFn None in
    create d attrs postOps memory context = None
    /\ invoke (call_create attrs postOps memory context) d
       = (ret_executor None, d)
    /\ (forall e : Executor,
          create d attrs postOps memory context <> Some e).
Proof.
  intros. subst d. unfold invoke, const_member, create. cbn [m_create].
  repeat split. discriminate.
Qed.

(** C4: a descriptor constructed with an empty [requiresFallback] function
    object answers with the empty optional for every config, and that answer
    differs, by [has_value], from the answer of a descriptor whose callable
    asks for a fallback to a given (for instance default-constructed)
    config. *)
Theorem requiresFallback_unset_is_empty :
  forall (label : string) (ty : ExecutorType) (op : OperationType)
         (shape : ShapeTolerance.t) (supportsFn : SupportsFn)
         (shapeFn : ShapeFn) (createFn : CreateFn)
         (config defaultConfig : Config),
    let unset : Impl :=
      mkExecutorImplementation label ty op shape supportsFn None shapeFn
        createFn in
    let toDefault : Impl :=
      mkExecutorImplementation label ty op shape supportsFn
        (Some (fun _ => Some defaultConfig)) shapeFn createFn in
    requiresFallback unset config = None
    /\ requiresFallback toDefault config = Some defaultConfig
    /\ has_value (requiresFallback unset config) = false
    /\ has_value (requiresFallback toDefault config) = true
    /\ requiresFallback unset config <> requiresFallback toDefault config.
Proof.
  intros. subst unset toDefault. unfold requiresFallback.
  cbn [m_requiresFallback has_value].
  repeat split. discriminate.
Qed.

(** Each call hands the object back as it received it. *)
Lemma invoke_leaves_this :
  forall (c : Call Attrs Config MemoryArgs PostOps ExecutorContext)
         (this : Impl),
    snd (invoke c this) = this.
Proof.
  intros c this. destruct c; reflexivity.
Qed.

Lemma invokeAll_leaves_this :
  forall (cs : list (Call Attrs Config MemoryArgs PostOps ExecutorContext))
         (this : Impl),
    snd (invokeAll cs this) = this.
Proof.
  induction cs as [| c rest IH]; intros this.
  - reflexivity.
  - cbn [invokeAll].
    pose proof (invoke_leaves_this c this) as Hc.
    destruct (invoke c this) as [r this1]. cbn [snd] in Hc. subst this1.
    specialize (IH this).
    destruct (invokeAll rest this) as [rs this2]. exact IH.
Qed.

(** C6: [shapeAgnostic()] is [true] exactly for a descriptor constructed
    with [ShapeTolerance::Agnostic], and [false] for one constructed with
    the other value, [Dependent]. *)
Theorem shapeAgnostic_iff_constructed_agnostic :
  forall (label : string) (ty : ExecutorType) (op : OperationType)
         (shape : ShapeTolerance.t) (supportsFn : SupportsFn)
         (fallbackFn : FallbackFn) (shapeFn : ShapeFn) (createFn : CreateFn),
    let d : Impl :=
      mkExecutorImplementation label ty op shape supportsFn fallbackFn
        shapeFn createFn in
    (shapeAgnostic d = true <-> shape = ShapeTolerance.Agnostic)
    /\ (shape = ShapeTolerance.Dependent -> shapeAgnostic d = false).
Proof.
  intros. subst d. unfold shapeAgnostic. cbn [m_shapeRelation].
  destruct shape; cbn [ShapeTolerance.eqb]; split.
  - split; reflexivity.
  - discriminate.
  - split; discriminate.
  - reflexivity.
Qed.

(** C10: after any sequence of calls on a freshly constructed descriptor,
    [name()], [type()] and [operationType()] return the name, executor type
    and operation type the constructor was given. *)
Theorem accessors_return_constructor_arguments :
  forall (cs : list (Call Attrs Config MemoryArgs PostOps ExecutorContext))
         (label : string) (ty : ExecutorType) (op : OperationType)
         (shape : ShapeTolerance.t) (supportsFn : SupportsFn)
         (fallbackFn : FallbackFn) (shapeFn : ShapeFn) (createFn : CreateFn),
    let constructed : Impl :=
      mkExecutorImplementation label ty op shape supportsFn fallbackFn
        shapeFn createFn in
    let after := snd (invokeAll cs constructed) in
    name after = label
    /\ type after = ty
    /\ operationType after = op
    /\ fst (invoke call_name after) = ret_name label
    /\ fst (invoke call_type after) = ret_type ty
    /\ fst (invoke call_operationType after) = ret_operationType op.
Proof.
  intros. subst after. rewrite invokeAll_leaves_this. subst constructed.
  repeat split.
Qed.

End DescriptorProperties.

(** ** Properties of the selection pass *)

Section SelectionProperties.

Variables Attrs Config MemoryArgs PostOps ExecutorContext Executor : Type.
Variables ExecutorType OperationType : Type.

Let Impl : Type :=
  ExecutorImplementation Attrs Config MemoryArgs PostOps ExecutorContext
    Executor ExecutorType OperationType.

Variable configAttrs : Config -> Attrs.
Variable config : Config.
Variable memory : MemoryArgs.
Variable attrs : Attrs.
Variable postOps : PostOps.
Variable context : ExecutorContext.

(** *** One candidate *)

Lemma evaluate_created :
  forall (d : Impl) (e : Executor),
    supports d config = true ->
    shapeAgnostic d = true \/ acceptsShapes d memory = true ->
    create d (effectiveAttrs configAttrs attrs (requiresFallback d config))
      postOps memory context = Some e ->
    fst (evaluate configAttrs config memory attrs postOps context d)
    = Created e (effectiveConfig config (requiresFallback d config)).
Proof.
  intros d e Hsup Hshape Hcreate.
  unfold evaluate, bind, call, ret. rewrite Hsup.
  destruct (shapeAgnostic d).
  - rewrite Hcreate. reflexivity.
  - destruct Hshape as [Hagn | Hacc]; [discriminate |].
    rewrite Hacc, Hcreate. reflexivity.
Qed.

Lemma evaluate_rejected :
  forall d : Impl,
    rejects configAttrs config memory attrs postOps context d ->
    exists why,
      fst (evaluate configAttrs config memory attrs postOps context d)
      = Rejected why.
Proof.
  intros d [Hsup | [[Hagn Hacc] | Hcreate]];
    unfold evaluate, bind, call, ret.
  - rewrite Hsup. now exists Unsupported.
  - rewrite Hagn, Hacc.
    destruct (supports d config); [now exists ShapeRejected |].
    now exists Unsupported.
  - rewrite Hcreate.
    destruct (supports d config); [| now exists Unsupported].
    destruct (shapeAgnostic d); [now exists CreateFailed |].
    destruct (acceptsShapes d memory); [now exists CreateFailed |].
    now exists ShapeRejected.
Qed.

(** No capability is called twice in the evaluation of one candidate. *)
Lemma evaluate_calls_each_once :
  forall (d : Impl) (c : Capability),
    count_occ Capability_eq_dec
      (snd (evaluate configAttrs config memory attrs postOps context d)) c
    <= 1.
Proof.
  intros d c. unfold evaluate, bind, call, ret.
  destruct (supports d config); [| destruct c; cbn; lia].
  destruct (shapeAgnostic d).
  - destruct (create d _ postOps memory context); destruct c; cbn; lia.
  - destruct (acceptsShapes d memory); [| destruct c; cbn; lia].
    destruct (create d _ postOps memory context); destruct c; cbn; lia.
Qed.

(** A config handed back with an executor is the caller's, or the one
    replacement the candidate asked for. *)
Lemma evaluate_used_config :
  forall (d : Impl) (e : Executor) (used : Config),
    fst (evaluate configAttrs config memory attrs postOps context d)
    = Created e used ->
    used = effectiveConfig config (requiresFallback d config).
Proof.
  intros d e used. unfold evaluate, bind, call, ret.
  destruct (supports d config); [| discriminate].
  destruct (shapeAgnostic d).
  - destruct (create d _ postOps memory context); [| discriminate].
    cbn. intros H. now injection H.
  - destruct (acceptsShapes d memory); [| discriminate].
    destruct (create d _ postOps memory context); [| discriminate].
    cbn. intros H. now injection H.
Qed.

(** *** The call counters *)

Lemma countCalls_cons :
  forall (j : nat) (c : Capability) (i : nat) (calls : list Capability)
         (log : Log),
    countCalls j c ((i, calls) :: log)
    = (if Nat.eqb i j then count_occ Capability_eq_dec calls c else 0)
      + countCalls j c log.
Proof.
  intros. reflexivity.
Qed.

Lemma countCalls_absent :
  forall (j : nat) (c : Capability) (log : Log),
    ~ In j (map fst log) -> countCalls j c log = 0.
Proof.
  intros j c log. induction log as [| [i calls] log IH]; intros Hnot.
  - reflexivity.
  - rewrite countCalls_cons. cbn [map fst In] in Hnot.
    destruct (Nat.eqb_spec i j) as [Heq | Hne].
    + exfalso. apply Hnot. now left.
    + rewrite IH; [reflexivity |]. intros Hin. apply Hnot. now right.
Qed.

Lemma countCalls_at_most_once :
  forall (j : nat) (c : Capability) (log : Log),
    NoDup (map fst log) ->
    Forall (fun entry => count_occ Capability_eq_dec (snd entry) c <= 1) log ->
    countCalls j c log <= 1.
Proof.
  intros j c log. induction log as [| [i calls] log IH]; intros Hnd Hall.
  - cbn. lia.
  - rewrite countCalls_cons. cbn [map fst] in Hnd.
    inversion Hnd as [| x xs Hnotin Hnd' ]; subst.
    inversion Hall as [| y ys Hhead Htail ]; subst. cbn [snd] in Hhead.
    destruct (Nat.eqb_spec i j) as [Heq | Hne].
    + subst j. rewrite (countCalls_absent i c log Hnotin). lia.
    + specialize (IH Hnd' Htail). lia.
Qed.

(** *** The pass over the list *)

(** The positions evaluated are [i], [i + 1], ... in that order. *)
Lemma selectFrom_positions :
  forall (impls : list Impl) (i : nat) (tried : list (string * Rejection)),
    let log :=
      snd (selectFrom configAttrs config memory attrs postOps context i impls
             tried) in
    map fst log = seq i (length log).
Proof.
  induction impls as [| d rest IH]; intros i tried; cbn [selectFrom].
  - reflexivity.
  - destruct (evaluate configAttrs config memory attrs postOps context d)
      as [[why | e used] calls].
    + specialize (IH (S i) (tried ++ [(name d, why)])).
      destruct (selectFrom configAttrs config memory attrs postOps context
                  (S i) rest (tried ++ [(name d, why)])) as [result log].
      cbn in *. now rewrite IH.
    + reflexivity.
Qed.

Lemma selectFrom_log_length :
  forall (impls : list Impl) (i : nat) (tried : list (string * Rejection)),
    length
      (snd (selectFrom configAttrs config memory attrs postOps context i impls
              tried))
    <= length impls.
Proof.
  induction impls as [| d rest IH]; intros i tried; cbn [selectFrom].
  - cbn. lia.
  - destruct (evaluate configAttrs config memory attrs postOps context d)
      as [[why | e used] calls].
    + specialize (IH (S i) (tried ++ [(name d, why)])).
      destruct (selectFrom configAttrs config memory attrs postOps context
                  (S i) rest (tried ++ [(name d, why)])) as [result log].
      cbn in *. lia.
    + cbn. lia.
Qed.

Lemma selectFrom_calls_each_once :
  forall (c : Capability) (impls : list Impl) (i : nat)
         (tried : list (string * Rejection)),
    Forall (fun entry => count_occ Capability_eq_dec (snd entry) c <= 1)
      (snd (selectFrom configAttrs config memory attrs postOps context i impls
              tried)).
Proof.
  intros c. induction impls as [| d rest IH]; intros i tried;
    cbn [selectFrom].
  - constructor.
  - pose proof (evaluate_calls_each_once d c) as Hd.
    destruct (evaluate configAttrs config memory attrs postOps context d)
      as [[why | e used] calls]; cbn [snd] in Hd.
    + specialize (IH (S i) (tried ++ [(name d, why)])).
      destruct (selectFrom configAttrs config memory attrs postOps context
                  (S i) rest (tried ++ [(name d, why)])) as [result log].
      cbn [snd] in *. constructor; assumption.
    + cbn [snd]. constructor; [assumption | constructor].
Qed.

(** The pass goes no further than a candidate that can be created. *)
Lemma selectFrom_stops_at :
  forall (impls : list Impl) (i : nat) (tried : list (string * Rejection))
         (k : nat) (d : Impl) (e : Executor) (used : Config),
    nth_error impls k = Some d ->
    fst (evaluate configAttrs config memory attrs postOps context d)
    = Created e used ->
    Forall (fun entry => fst entry <= i + k)
      (snd (selectFrom configAttrs config memory attrs postOps context i impls
              tried)).
Proof.
  induction impls as [| a rest IH]; intros i tried k d e used Hnth Hd.
  - destruct k; discriminate.
  - cbn [selectFrom]. destruct k as [| k]; cbn [nth_error] in Hnth.
    + injection Hnth as ->.
      destruct (evaluate configAttrs config memory attrs postOps context d)
        as [o calls]. cbn [fst] in Hd. subst o. cbn [snd].
      constructor; [cbn; lia | constructor].
    + destruct (evaluate configAttrs config memory attrs postOps context a)
        as [[why | e' used'] calls].
      * specialize (IH (S i) (tried ++ [(name a, why)]) k d e used Hnth Hd).
        destruct (selectFrom configAttrs config memory attrs postOps context
                    (S i) rest (tried ++ [(name a, why)])) as [result log].
        cbn [snd] in *. constructor; [cbn; lia |].
        eapply Forall_impl; [| exact IH]. cbn. intros entry Hle. lia.
      * cbn [snd]. constructor; [cbn; lia | constructor].
Qed.

(** When every candidate is rejected the pass reports them all, in order. *)
Lemma selectFrom_exhausted :
  forall (impls : list Impl) (i : nat) (tried : list (string * Rejection)),
    Forall (rejects configAttrs config memory attrs postOps context) impls ->
    exists more : list (string * Rejection),
      fst (selectFrom configAttrs config memory attrs postOps context i impls
             tried)
      = NoApplicableImplementation (tried ++ more)
      /\ map fst more = map name impls.
Proof.
  induction impls as [| d rest IH]; intros i tried Hall.
  - exists []. cbn. now rewrite app_nil_r.
  - inversion Hall as [| x xs Hd Hrest]; subst.
    destruct (evaluate_rejected d Hd) as [why Hwhy].
    cbn [selectFrom].
    destruct (evaluate configAttrs config memory attrs postOps context d)
      as [o calls]. cbn [fst] in Hwhy. subst o.
    destruct (IH (S i) (tried ++ [(name d, why)]) Hrest) as [more [Hsel Hnames]].
    destruct (selectFrom configAttrs config memory attrs postOps context
                (S i) rest (tried ++ [(name d, why)])) as [result log].
    cbn [fst] in *. exists ((name d, why) :: more). split.
    + rewrite Hsel, <- app_assoc. reflexivity.
    + cbn. now rewrite Hnames.
Qed.

(** A config handed back by the pass is the caller's or the single
    replacement asked for by one descriptor of the list. *)
Lemma selectFrom_used_config :
  forall (impls : list Impl) (i : nat) (tried : list (string * Rejection))
         (e : Executor) (used : Config),
    fst (selectFrom configAttrs config memory attrs postOps context i impls
           tried)
    = Selected e used ->
    exists d : Impl,
      In d impls
      /\ used = effectiveConfig config (requiresFallback d config).
Proof.
  induction impls as [| d rest IH]; intros i tried e used; cbn [selectFrom].
  - discriminate.
  - pose proof (evaluate_used_config d) as Hd.
    destruct (evaluate configAttrs config memory attrs postOps context d)
      as [[why | e' used'] calls]; cbn [fst] in Hd.
    + specialize (IH (S i) (tried ++ [(name d, why)]) e used).
      destruct (selectFrom configAttrs config memory attrs postOps context
                  (S i) rest (tried ++ [(name d, why)])) as [result log].
      cbn [fst] in *. intros Hsel.
      destruct (IH Hsel) as [d' [Hin Hused]].
      exists d'. split; [now right | exact Hused].
    + cbn [fst]. intros Hsel. injection Hsel as <- <-.
      exists d. split; [now left | exact (Hd e' used' eq_refl)].
Qed.

(** C7: if the descriptor at position [i] supports the config, accepts the
    shapes and creates an executor, then no capability of a descriptor at a
    later position [j] is called during selection: all four of its call
    counters stay at zero, and it has no entry in the log. *)
Theorem select_short_circuits :
  forall (impls : list Impl) (i : nat) (d : Impl) (e : Executor),
    nth_error impls i = Some d ->
    supports d config = true ->
    acceptsShapes d memory = true ->
    create d (effectiveAttrs configAttrs attrs (requiresFallback d config))
      postOps memory context = Some e ->
    forall j : nat,
      i < j ->
      let log :=
        snd (select configAttrs config memory attrs postOps context impls) in
      ~ In j (map fst log)
      /\ countCalls j CallSupports log = 0
      /\ countCalls j CallRequiresFallback log = 0
      /\ countCalls j CallAcceptsShapes log = 0
      /\ countCalls j CallCreate log = 0.
Proof.
  intros impls i d e Hnth Hsup Hacc Hcreate j Hlt log.
  assert (Hnot : ~ In j (map fst log)).
  { subst log. unfold select.
    pose proof (selectFrom_stops_at impls 0 [] i d e _ Hnth
                  (evaluate_created d e Hsup (or_intror Hacc) Hcreate))
      as Hstop.
    rewrite Forall_forall in Hstop.
    intros Hin. apply in_map_iff in Hin. destruct Hin as [entry [Hj Hin]].
    specialize (Hstop entry Hin). lia. }
  split; [exact Hnot |].
  repeat split; apply countCalls_absent; exact Hnot.
Qed.

(** C8: in a selection over [N] descriptors, [requiresFallback] of each
    descriptor is called at most once; the descriptors evaluated are those
    at positions 0, 1, 2, ... in that order, so none is evaluated twice; and
    at most [N] descriptors are evaluated.  A config returned with the
    executor is the caller's config or the one replacement of a single
    descriptor. *)
Theorem select_single_bounded_pass :
  forall impls : list Impl,
    let result :=
      fst (select configAttrs config memory attrs postOps context impls) in
    let log :=
      snd (select configAttrs config memory attrs postOps context impls) in
    (forall i : nat, countCalls i CallRequiresFallback log <= 1)
    /\ map fst log = seq 0 (length log)
    /\ NoDup (map fst log)
    /\ length log <= length impls
    /\ (forall (e : Executor) (used : Config),
          result = Selected e used ->
          exists d : Impl,
            In d impls
            /\ used = effectiveConfig config (requiresFallback d config)).
Proof.
  intros impls result log. subst result log. unfold select.
  pose proof (selectFrom_positions impls 0 []) as Hpos. cbn zeta in Hpos.
  assert (Hnd : NoDup
                  (map fst
                     (snd (selectFrom configAttrs config memory attrs postOps
                             context 0 impls [])))).
  { rewrite Hpos. apply seq_NoDup. }
  split.
  { intros i. apply countCalls_at_most_once; [exact Hnd |].
    apply selectFrom_calls_each_once. }
  split; [exact Hpos |].
  split; [exact Hnd |].
  split; [apply selectFrom_log_length |].
  intros e used Hsel. eapply selectFrom_used_config. exact Hsel.
Qed.

(** C9: if every descriptor of the list is rejected (on support, on shape or
    on creation), which includes the empty list, selection answers
    [NoApplicableImplementation], naming every descriptor of the list in
    order, and does not answer [Selected] with any executor. *)
Theorem select_reports_exhaustion :
  forall impls : list Impl,
    Forall (rejects configAttrs config memory attrs postOps context) impls ->
    let result :=
      fst (select configAttrs config memory attrs postOps context impls) in
    (exists tried : list (string * Rejection),
        result = NoApplicableImplementation tried
        /\ map fst tried = map name impls)
    /\ (forall (e : Executor) (used : Config), result <> Selected e used).
Proof.
  intros impls Hall result. subst result. unfold select.
  destruct (selectFrom_exhausted impls 0 [] Hall) as [more [Hsel Hnames]].
  cbn [app] in Hsel. split.
  - exists more. split; assumption.
  - intros e used Heq. rewrite Hsel in Heq. discriminate.
Qed.

End SelectionProperties.

(** ** The properties at the mock descriptors *)

Example bare_answers :
  supports Mock.bare 7 = false
  /\ requiresFallback Mock.bare 7 = None
  /\ acceptsShapes Mock.bare [2; 3] = false
  /\ create Mock.bare 7 tt [2; 3] tt = None
  /\ shapeAgnostic Mock.bare = false
  /\ name Mock.bare = "bare"%string.
Proof. repeat split. Qed.

(** Scenario A: the first descriptor does not support the config. *)
Example scenario_A :
  Mock.run [Mock.unsupported; Mock.working]
  = (Selected "ExecutorX"%string 7,
     [(0, [CallSupports]);
      (1, [CallSupports; CallRequiresFallback; CallAcceptsShapes;
           CallCreate])]).
Proof. reflexivity. Qed.

(** Scenario B: the only descriptor asks for a fallback to config [9]. *)
Example scenario_B :
  fst (Mock.run [Mock.viaFallback]) = Selected "ExecutorY"%string 9.
Proof. reflexivity. Qed.

(** Scenario C: the first descriptor rejects the shapes. *)
Example scenario_C :
  fst (Mock.run [Mock.shapeRejecting; Mock.working])
  = Selected "ExecutorX"%string 7.
Proof. reflexivity. Qed.

(** Scenario D: the first descriptor fails to create. *)
Example scenario_D :
  fst (Mock.run [Mock.failing; Mock.working])
  = Selected "ExecutorX"%string 7.
Proof. reflexivity. Qed.

(** Scenario E: the empty registry. *)
Example scenario_E :
  Mock.run [] = (NoApplicableImplementation [], []).
Proof. reflexivity. Qed.

(** Shape-agnostic skip: [acceptsShapes] of an agnostic descriptor is not
    consulted. *)
Example scenario_agnostic :
  Mock.run [Mock.agnostic; Mock.working]
  = (Selected "ExecutorA"%string 7,
     [(0, [CallSupports; CallRequiresFallback; CallCreate])]).
Proof. reflexivity. Qed.

(** Both tolerances, on two mock descriptors. *)
Lemma shapeAgnostic_iff_constructed_agnostic_witness :
  ((shapeAgnostic Mock.agnostic = true
    <-> ShapeTolerance.Agnostic = ShapeTolerance.Agnostic)
   /\ (ShapeTolerance.Agnostic = ShapeTolerance.Dependent
       -> shapeAgnostic Mock.agnostic = false))
  /\ ((shapeAgnostic Mock.working = true
       <-> ShapeTolerance.Dependent = ShapeTolerance.Agnostic)
      /\ (ShapeTolerance.Dependent = ShapeTolerance.Dependent
          -> shapeAgnostic Mock.working = false)).
Proof.
  split.
  - exact (shapeAgnostic_iff_constructed_agnostic
             nat nat (list nat) unit unit string nat nat
             "agnostic"%string 1 2 ShapeTolerance.Agnostic
             (Some (fun _ => true)) (Some (fun _ => None))
             (Some (fun _ => false))
             (Some (fun _ _ _ _ => Some "ExecutorA"%string))).
  - exact (shapeAgnostic_iff_constructed_agnostic
             nat nat (list nat) unit unit string nat nat
             "working"%string 1 2 ShapeTolerance.Dependent
             (Some (fun _ => true)) (Some (fun _ => None))
             (Some (fun _ => true))
             (Some (fun _ _ _ _ => Some "ExecutorX"%string))).
Defined.

(** The descriptor at position 1 succeeds; the one at position 2 is never
    called. *)
Lemma select_short_circuits_witness :
  nth_error [Mock.unsupported; Mock.working; Mock.failing] 1
  = Some Mock.working
  /\ supports Mock.working 7 = true
  /\ acceptsShapes Mock.working [2; 3] = true
  /\ create Mock.working 7 tt [2; 3] tt = Some "ExecutorX"%string
  /\ ~ In 2 (map fst (snd (Mock.run
                             [Mock.unsupported; Mock.working; Mock.failing])))
  /\ countCalls 2 CallSupports
       (snd (Mock.run [Mock.unsupported; Mock.working; Mock.failing])) = 0
  /\ countCalls 2 CallRequiresFallback
       (snd (Mock.run [Mock.unsupported; Mock.working; Mock.failing])) = 0
  /\ countCalls 2 CallAcceptsShapes
       (snd (Mock.run [Mock.unsupported; Mock.working; Mock.failing])) = 0
  /\ countCalls 2 CallCreate
       (snd (Mock.run [Mock.unsupported; Mock.working; Mock.failing])) = 0.
Proof.
  repeat (split; [reflexivity |]).
  exact (select_short_circuits
           nat nat (list nat) unit unit string nat nat
           (fun c : nat => c) 7 [2; 3] 7 tt tt
           [Mock.unsupported; Mock.working; Mock.failing] 1 Mock.working
           "ExecutorX"%string eq_refl eq_refl eq_refl eq_refl 2 (le_n 2)).
Defined.

(** A pass over four descriptors in which the third is selected through its
    fallback. *)
Lemma select_single_bounded_pass_witness :
  (forall i : nat,
      countCalls i CallRequiresFallback
        (snd (Mock.run [Mock.unsupported; Mock.failing; Mock.viaFallback;
                        Mock.working]))
      <= 1)
  /\ length (snd (Mock.run [Mock.unsupported; Mock.failing; Mock.viaFallback;
                            Mock.working]))
     <= 4.
Proof.
  pose proof (select_single_bounded_pass
                nat nat (list nat) unit unit string nat nat
                (fun c : nat => c) 7 [2; 3] 7 tt tt
                [Mock.unsupported; Mock.failing; Mock.viaFallback;
                 Mock.working]) as H.
  cbv zeta in H. destruct H as [Hcount [_ [_ [Hlen _]]]].
  split; [exact Hcount | exact Hlen].
Defined.

(** One descriptor rejected on each ground, and one with no callable. *)
Lemma select_reports_exhaustion_witness :
  Forall Mock.rejected
    [Mock.unsupported; Mock.shapeRejecting; Mock.failing; Mock.bare]
  /\ (exists tried : list (string * Rejection),
         fst (Mock.run [Mock.unsupported; Mock.shapeRejecting; Mock.failing;
                        Mock.bare])
         = NoApplicableImplementation tried
         /\ map fst tried
            = ["unsupported"; "shapeRejecting"; "failing"; "bare"]%string)
  /\ (exists tried : list (string * Rejection),
         fst (Mock.run []) = NoApplicableImplementation tried
         /\ map fst tried = []).
Proof.
  assert (Hall : Forall Mock.rejected
                   [Mock.unsupported; Mock.shapeRejecting; Mock.failing;
                    Mock.bare]).
  { unfold Mock.rejected, rejects.
    constructor; [left; reflexivity |].
    constructor; [right; left; split; reflexivity |].
    constructor; [right; right; reflexivity |].
    constructor; [left; reflexivity | constructor]. }
  split; [exact Hall |]. split.
  - exact (proj1 (select_reports_exhaustion
                    nat nat (list nat) unit unit string nat nat
                    (fun c : nat => c) 7 [2; 3] 7 tt tt
                    [Mock.unsupported; Mock.shapeRejecting; Mock.failing;
                     Mock.bare] Hall)).
  - exact (proj1 (select_reports_exhaustion
                    nat nat (list nat) unit unit string nat nat
                    (fun c : nat => c) 7 [2; 3] 7 tt tt
                    [] (Forall_nil _))).
Defined.

(** ** Further behaviour of the descriptor

    What the member functions do when a callable is stored, what they do
    not look at, and what a caller can and cannot observe through them. *)

Section DescriptorBehaviour.

Variables Attrs Config MemoryArgs PostOps ExecutorContext Executor : Type.
Variables ExecutorType OperationType : Type.

Let Impl : Type :=
  ExecutorImplementation Attrs Config MemoryArgs PostOps ExecutorContext
    Executor ExecutorType OperationType.

Let Calls : Type := list (Call Attrs Config MemoryArgs PostOps ExecutorContext).

Let SupportsFn : Type := option (Config -> bool).
Let FallbackFn : Type := option (Config -> option Config).
Let ShapeFn : Type := option (MemoryArgs -> bool).
Let CreateFn : Type :=
  option (Attrs -> PostOps -> MemoryArgs -> ExecutorContext
          -> ExecutorPtr Executor).

(** X1: a positive answer always comes from the stored callable.
    [supports] and [acceptsShapes] say [true], [requiresFallback] names a
    replacement and [create] hands out an executor exactly when the
    corresponding function object is set and gave that very answer on the
    same arguments. *)
Theorem positive_answers_come_from_callables :
  forall d : Impl,
    (forall config : Config,
        supports d config = true
        <-> exists f, m_supports d = Some f /\ f config = true)
    /\ (forall (config replacement : Config),
          requiresFallback d config = Some replacement
          <-> exists f,
              m_requiresFallback d = Some f /\ f config = Some replacement)
    /\ (forall memory : MemoryArgs,
          acceptsShapes d memory = true
          <-> exists f, m_acceptsShape d = Some f /\ f memory = true)
    /\ (forall (attrs : Attrs) (postOps : PostOps) (memory : MemoryArgs)
               (context : ExecutorContext) (e : Executor),
          create d attrs postOps memory context = Some e
          <-> exists f,
              m_create d = Some f
              /\ f attrs postOps memory context = Some e).
Proof.
  intros d. unfold supports, requiresFallback, acceptsShapes, create.
  repeat split.
  - destruct (m_supports d) as [f |]; [eauto | discriminate].
  - intros [f [Hset Hf]]. now rewrite Hset.
  - destruct (m_requiresFallback d) as [f |]; [eauto | discriminate].
  - intros [f [Hset Hf]]. now rewrite Hset.
  - destruct (m_acceptsShape d) as [f |]; [eauto | discriminate].
  - intros [f [Hset Hf]]. now rewrite Hset.
  - destruct (m_create d) as [f |]; [eauto | discriminate].
  - intros [f [Hset Hf]]. now rewrite Hset.
Qed.

(** X2: [create] checks neither [supports] nor [acceptsShapes].  A
    descriptor constructed without these two callables supports no config
    and accepts no shapes, yet its [create] returns whatever executor the
    factory makes. *)
Theorem create_is_not_gated :
  forall (label : string) (ty : ExecutorType) (op : OperationType)
         (shape : ShapeTolerance.t) (fallbackFn : FallbackFn)
         (factory : Attrs -> PostOps -> MemoryArgs -> ExecutorContext
                    -> ExecutorPtr Executor)
         (attrs : Attrs) (postOps : PostOps) (memory : MemoryArgs)
         (context : ExecutorContext) (e : Executor),
    factory attrs postOps memory context = Some e ->
    let d : Impl :=
      mkExecutorImplementation label ty op shape None fallbackFn None
        (Some factory) in
    create d attrs postOps memory context = Some e
    /\ (forall config : Config, supports d config = false)
    /\ (forall m : MemoryArgs, acceptsShapes d m = false).
Proof.
  intros label ty op shape fallbackFn factory attrs postOps memory context e
    Hmade d.
  subst d. unfold create, supports, acceptsShapes.
  cbn [m_create m_supports m_acceptsShape].
  split; [exact Hmade |]. split; intros; reflexivity.
Qed.

(** X3: [requiresFallback] does not check [supports]: a descriptor without
    a [supports] callable rejects every config and still names the
    replacement its fallback callable computes. *)
Theorem requiresFallback_is_not_gated :
  forall (label : string) (ty : ExecutorType) (op : OperationType)
         (shape : ShapeTolerance.t) (fallback : Config -> option Config)
         (shapeFn : ShapeFn) (createFn : CreateFn)
         (config replacement : Config),
    fallback config = Some replacement ->
    let d : Impl :=
      mkExecutorImplementation label ty op shape None (Some fallback)
        shapeFn createFn in
    requiresFallback d config = Some replacement
    /\ supports d config = false
    /\ supports d replacement = false.
Proof.
  intros label ty op shape fallback shapeFn createFn config replacement
    Hfallback d.
  subst d. unfold requiresFallback, supports.
  cbn [m_requiresFallback m_supports].
  split; [exact Hfallback |]. split; reflexivity.
Qed.

(** X4: [acceptsShapes] does not look at the shape tolerance.  It answers
    the same for an agnostic and for a dependent descriptor with the same
    callable, and an agnostic descriptor constructed without the callable
    reports [shapeAgnostic()] while rejecting every shape. *)
Theorem acceptsShapes_ignores_tolerance :
  forall (label : string) (ty : ExecutorType) (op : OperationType)
         (supportsFn : SupportsFn) (fallbackFn : FallbackFn)
         (shapeFn : ShapeFn) (createFn : CreateFn) (memory : MemoryArgs),
    let build (shape : ShapeTolerance.t) (fn : ShapeFn) : Impl :=
      mkExecutorImplementation label ty op shape supportsFn fallbackFn fn
        createFn in
    acceptsShapes (build ShapeTolerance.Agnostic shapeFn) memory
    = acceptsShapes (build ShapeTolerance.Dependent shapeFn) memory
    /\ shapeAgnostic (build ShapeTolerance.Agnostic None) = true
    /\ acceptsShapes (build ShapeTolerance.Agnostic None) memory = false.
Proof.
  intros. subst build. unfold acceptsShapes, shapeAgnostic.
  cbn [m_acceptsShape m_shapeRelation ShapeTolerance.eqb].
  repeat split.
Qed.

(** The answers of a sequence of calls are the answers each call gets on
    the object the sequence started from. *)
Lemma invokeAll_answers :
  forall (cs : Calls) (this : Impl),
    fst (invokeAll cs this) = map (fun c => fst (invoke c this)) cs.
Proof.
  induction cs as [| c rest IH]; intros this.
  - reflexivity.
  - cbn [invokeAll map].
    pose proof (invoke_leaves_this _ _ _ _ _ _ _ _ c this) as Hc.
    destruct (invoke c this) as [r this1] eqn:Hinv.
    cbn [snd] in Hc. subst this1.
    specialize (IH this).
    destruct (invokeAll rest this) as [rs this2].
    cbn [fst] in *. now rewrite IH.
Qed.

(** One call cannot tell two descriptors apart when the eight member
    functions agree on them. *)
Lemma invoke_agrees :
  forall d1 d2 : Impl,
    name d1 = name d2 ->
    type d1 = type d2 ->
    operationType d1 = operationType d2 ->
    shapeAgnostic d1 = shapeAgnostic d2 ->
    (forall config, supports d1 config = supports d2 config) ->
    (forall config, requiresFallback d1 config = requiresFallback d2 config) ->
    (forall memory, acceptsShapes d1 memory = acceptsShapes d2 memory) ->
    (forall attrs postOps memory context,
        create d1 attrs postOps memory context
        = create d2 attrs postOps memory context) ->
    forall c : Call Attrs Config MemoryArgs PostOps ExecutorContext,
      fst (invoke c d1) = fst (invoke c d2).
Proof.
  intros d1 d2 Hname Htype Hop Hshape Hsup Hfb Hacc Hcreate c.
  destruct c; unfold invoke, const_member; cbn [fst]; f_equal; auto.
Qed.

(** X7: whether a callable was given cannot be observed.  A descriptor
    constructed with four empty function objects answers every sequence of
    calls as the descriptor constructed with a [supports] and an
    [acceptsShape] that always say [false], a [requiresFallback] that never
    names a replacement and a [create] that always returns null. *)
Theorem unset_callables_are_unobservable :
  forall (label : string) (ty : ExecutorType) (op : OperationType)
         (shape : ShapeTolerance.t) (cs : Calls),
    let unset : Impl :=
      mkExecutorImplementation label ty op shape None None None None in
    let refusing : Impl :=
      mkExecutorImplementation label ty op shape
        (Some (fun _ => false))
        (Some (fun _ => None))
        (Some (fun _ => false))
        (Some (fun _ _ _ _ => None)) in
    fst (invokeAll cs unset) = fst (invokeAll cs refusing).
Proof.
  intros label ty op shape cs unset refusing.
  rewrite !invokeAll_answers. apply map_ext. intros c.
  apply invoke_agrees; intros; reflexivity.
Qed.

(** X8: the name and the two type tags are labels only.  Constructing the
    descriptor with another name, executor type and operation type changes
    no answer of [supports], [requiresFallback], [acceptsShapes], [create]
    or [shapeAgnostic]. *)
Theorem labels_are_not_dispatch_keys :
  forall (label label' : string) (ty ty' : ExecutorType)
         (op op' : OperationType) (shape : ShapeTolerance.t)
         (supportsFn : SupportsFn) (fallbackFn : FallbackFn)
         (shapeFn : ShapeFn) (createFn : CreateFn),
    let d : Impl :=
      mkExecutorImplementation label ty op shape supportsFn fallbackFn
        shapeFn createFn in
    let d' : Impl :=
      mkExecutorImplementation label' ty' op' shape supportsFn fallbackFn
        shapeFn createFn in
    (forall config, supports d config = supports d' config)
    /\ (forall config, requiresFallback d config = requiresFallback d' config)
    /\ (forall memory, acceptsShapes d memory = acceptsShapes d' memory)
    /\ (forall attrs postOps memory context,
          create d attrs postOps memory context
          = create d' attrs postOps memory context)
    /\ shapeAgnostic d = shapeAgnostic d'.
Proof.
  intros. subst d d'. repeat split.
Qed.

End DescriptorBehaviour.

(** The factory of [Stub.ungated] makes an executor for a descriptor that
    supports nothing and accepts no shapes. *)
Lemma create_is_not_gated_witness :
  create Stub.ungated 7 tt [2; 3] tt = Some "made"%string
  /\ (forall config : nat, supports Stub.ungated config = false)
  /\ (forall m : list nat, acceptsShapes Stub.ungated m = false).
Proof.
  exact (create_is_not_gated
           nat nat (list nat) unit unit string nat nat
           "ungated"%string 1 2 ShapeTolerance.Agnostic
           (Some (fun c : nat => Some (S c)))
           (fun (a : nat) (_ : unit) (_ : list nat) (_ : unit) =>
              Some "made"%string)
           7 tt [2; 3] tt "made"%string eq_refl).
Defined.

(** [Stub.ungated] rejects config [7] and its replacement [8]. *)
Lemma requiresFallback_is_not_gated_witness :
  requiresFallback Stub.ungated 7 = Some 8
  /\ supports Stub.ungated 7 = false
  /\ supports Stub.ungated 8 = false.
Proof.
  exact (requiresFallback_is_not_gated
           nat nat (list nat) unit unit string nat nat
           "ungated"%string 1 2 ShapeTolerance.Agnostic
           (fun c : nat => Some (S c)) None
           (Some (fun (a : nat) (_ : unit) (_ : list nat) (_ : unit) =>
                    Some "made"%string))
           7 8 eq_refl).
Defined.

(** ** What calls do to function objects that carry state *)

Section StatefulProperties.

Variables Attrs Config MemoryArgs PostOps ExecutorContext Executor : Type.
Variables ExecutorType OperationType : Type.
Variables Captures World : Type.

Let SImpl : Type :=
  Stateful.ExecutorImplementation Attrs Config MemoryArgs PostOps
    ExecutorContext Executor ExecutorType OperationType Captures World.

Let Calls : Type := list (Call Attrs Config MemoryArgs PostOps ExecutorContext).

(** A target that has run is the same target with the captures the run
    left. *)
Lemma run_keeps_code :
  forall (A R : Type) (f : Stateful.Target Captures World A R) (a : A)
         (w : World),
    Stateful.operator_call (snd (fst (Stateful.run f a w)))
    = Stateful.operator_call f.
Proof.
  intros A R f a w. unfold Stateful.run.
  destruct (Stateful.operator_call f (Stateful.captures f) a w)
    as [[r held] w'].
  reflexivity.
Qed.

Lemma run_keeps_captures :
  forall (A R : Type) (f : Stateful.Target Captures World A R) (a : A)
         (w : World),
    Stateful.keeps_captures f -> snd (fst (Stateful.run f a w)) = f.
Proof.
  intros A R f a w Hkeeps. unfold Stateful.run.
  specialize (Hkeeps (Stateful.captures f) a w).
  destruct (Stateful.operator_call f (Stateful.captures f) a w)
    as [[r held] w'].
  cbn [fst snd] in *. subst held. destruct f; reflexivity.
Qed.

Lemma run_quiet :
  forall (A R : Type) (f : Stateful.Target Captures World A R) (a : A)
         (w : World),
    Stateful.quiet f ->
    Stateful.run f a w = (fst (fst (Stateful.run f a w)), f, w).
Proof.
  intros A R f a w Hquiet. unfold Stateful.run.
  destruct (Hquiet (Stateful.captures f) a w) as [Hheld Hworld].
  destruct (Stateful.operator_call f (Stateful.captures f) a w)
    as [[r held] w'].
  cbn [fst snd] in *. subst held w'. destruct f; reflexivity.
Qed.

Lemma sameMembers_refl :
  forall this : SImpl, Stateful.sameMembers this this.
Proof. intros this. repeat split. Qed.

Lemma sameMembers_trans :
  forall a b c : SImpl,
    Stateful.sameMembers a b -> Stateful.sameMembers b c ->
    Stateful.sameMembers a c.
Proof.
  unfold Stateful.sameMembers.
  intros a b c (H1 & H2 & H3 & H4 & H5 & H6 & H7 & H8)
    (K1 & K2 & K3 & K4 & K5 & K6 & K7 & K8).
  repeat split; etransitivity; eassumption.
Qed.

(** One call replaces no member; it can only leave other captures in the
    target it ran. *)
Lemma invoke_sameMembers :
  forall (c : Call Attrs Config MemoryArgs PostOps ExecutorContext)
         (this : SImpl) (w : World),
    Stateful.sameMembers this (snd (fst (Stateful.invoke c this w))).
Proof.
  intros c this w.
  destruct c; unfold Stateful.invoke, Stateful.answering;
    try (apply sameMembers_refl).
  - unfold Stateful.supports.
    destruct (Stateful.m_supports this) as [f |] eqn:Hf;
      [| apply sameMembers_refl].
    pose proof (run_keeps_code _ _ f config w) as Hcode.
    destruct (Stateful.run f config w) as [[r f'] w'].
    cbn [fst snd] in *. unfold Stateful.sameMembers. cbn.
    rewrite Hf, Hcode. cbn.
    repeat split.
  - unfold Stateful.requiresFallback.
    destruct (Stateful.m_requiresFallback this) as [f |] eqn:Hf;
      [| apply sameMembers_refl].
    pose proof (run_keeps_code _ _ f config w) as Hcode.
    destruct (Stateful.run f config w) as [[r f'] w'].
    cbn [fst snd] in *. unfold Stateful.sameMembers. cbn.
    rewrite Hf, Hcode. cbn.
    repeat split.
  - unfold Stateful.acceptsShapes.
    destruct (Stateful.m_acceptsShape this) as [f |] eqn:Hf;
      [| apply sameMembers_refl].
    pose proof (run_keeps_code _ _ f memory w) as Hcode.
    destruct (Stateful.run f memory w) as [[r f'] w'].
    cbn [fst snd] in *. unfold Stateful.sameMembers. cbn.
    rewrite Hf, Hcode. cbn.
    repeat split.
  - unfold Stateful.create.
    destruct (Stateful.m_create this) as [f |] eqn:Hf;
      [| apply sameMembers_refl].
    pose proof (run_keeps_code _ _ f (attrs, postOps, memory, context) w)
      as Hcode.
    destruct (Stateful.run f (attrs, postOps, memory, context) w)
      as [[r f'] w'].
    cbn [fst snd] in *. unfold Stateful.sameMembers. cbn.
    rewrite Hf, Hcode. cbn.
    repeat split.
Qed.

Lemma invokeAll_sameMembers :
  forall (cs : Calls) (this : SImpl) (w : World),
    Stateful.sameMembers this (snd (fst (Stateful.invokeAll cs this w))).
Proof.
  induction cs as [| c rest IH]; intros this w.
  - apply sameMembers_refl.
  - cbn [Stateful.invokeAll].
    pose proof (invoke_sameMembers c this w) as Hc.
    destruct (Stateful.invoke c this w) as [[r this1] w1].
    specialize (IH this1 w1).
    destruct (Stateful.invokeAll rest this1 w1) as [[rs this2] w2].
    cbn [fst snd] in *. eapply sameMembers_trans; eassumption.
Qed.

(** Putting back the target a function object already holds gives the
    object itself. *)
Lemma with_supports_same :
  forall (this : SImpl) (f : Stateful.Target Captures World Config bool),
    Stateful.m_supports this = Some f -> Stateful.with_supports this f = this.
Proof.
  intros this f Hf. destruct this. cbn in Hf. subst. reflexivity.
Qed.

Lemma with_requiresFallback_same :
  forall (this : SImpl)
         (f : Stateful.Target Captures World Config (option Config)),
    Stateful.m_requiresFallback this = Some f ->
    Stateful.with_requiresFallback this f = this.
Proof.
  intros this f Hf. destruct this. cbn in Hf. subst. reflexivity.
Qed.

Lemma with_acceptsShape_same :
  forall (this : SImpl) (f : Stateful.Target Captures World MemoryArgs bool),
    Stateful.m_acceptsShape this = Some f ->
    Stateful.with_acceptsShape this f = this.
Proof.
  intros this f Hf. destruct this. cbn in Hf. subst. reflexivity.
Qed.

Lemma with_create_same :
  forall (this : SImpl)
         (f : Stateful.Target Captures World
                (Stateful.CreateArgs Attrs MemoryArgs PostOps ExecutorContext)
                (ExecutorPtr Executor)),
    Stateful.m_create this = Some f -> Stateful.with_create this f = this.
Proof.
  intros this f Hf. destruct this. cbn in Hf. subst. reflexivity.
Qed.

(** When no target changes its captures, a call leaves the descriptor as it
    was. *)
Lemma invoke_stateless :
  forall (c : Call Attrs Config MemoryArgs PostOps ExecutorContext)
         (this : SImpl) (w : World),
    Stateful.stateless this -> snd (fst (Stateful.invoke c this w)) = this.
Proof.
  intros c this w (Hsup & Hfb & Hacc & Hcreate).
  destruct c; unfold Stateful.invoke, Stateful.answering; try reflexivity.
  - unfold Stateful.supports.
    destruct (Stateful.m_supports this) as [f |] eqn:Hf; [| reflexivity].
    pose proof (run_keeps_captures _ _ f config w Hsup) as Hrun.
    destruct (Stateful.run f config w) as [[r f'] w'].
    cbn [fst snd] in *. subst f'. now apply with_supports_same.
  - unfold Stateful.requiresFallback.
    destruct (Stateful.m_requiresFallback this) as [f |] eqn:Hf;
      [| reflexivity].
    pose proof (run_keeps_captures _ _ f config w Hfb) as Hrun.
    destruct (Stateful.run f config w) as [[r f'] w'].
    cbn [fst snd] in *. subst f'. now apply with_requiresFallback_same.
  - unfold Stateful.acceptsShapes.
    destruct (Stateful.m_acceptsShape this) as [f |] eqn:Hf; [| reflexivity].
    pose proof (run_keeps_captures _ _ f memory w Hacc) as Hrun.
    destruct (Stateful.run f memory w) as [[r f'] w'].
    cbn [fst snd] in *. subst f'. now apply with_acceptsShape_same.
  - unfold Stateful.create.
    destruct (Stateful.m_create this) as [f |] eqn:Hf; [| reflexivity].
    pose proof (run_keeps_captures _ _ f (attrs, postOps, memory, context) w
                  Hcreate) as Hrun.
    destruct (Stateful.run f (attrs, postOps, memory, context) w)
      as [[r f'] w'].
    cbn [fst snd] in *. subst f'. now apply with_create_same.
Qed.

Lemma invokeAll_stateless :
  forall (cs : Calls) (this : SImpl) (w : World),
    Stateful.stateless this ->
    snd (fst (Stateful.invokeAll cs this w)) = this.
Proof.
  induction cs as [| c rest IH]; intros this w Hstateless.
  - reflexivity.
  - cbn [Stateful.invokeAll].
    pose proof (invoke_stateless c this w Hstateless) as Hc.
    destruct (Stateful.invoke c this w) as [[r this1] w1].
    cbn [fst snd] in Hc. subst this1.
    specialize (IH this w1 Hstateless).
    destruct (Stateful.invokeAll rest this w1) as [[rs this2] w2].
    exact IH.
Qed.

(** When no target changes its captures or the world, a call leaves the
    descriptor and the world as they were. *)
Lemma invoke_sideEffectFree :
  forall (c : Call Attrs Config MemoryArgs PostOps ExecutorContext)
         (this : SImpl) (w : World),
    Stateful.sideEffectFree this ->
    Stateful.invoke c this w
    = (fst (fst (Stateful.invoke c this w)), this, w).
Proof.
  intros c this w (Hsup & Hfb & Hacc & Hcreate).
  destruct c; unfold Stateful.invoke, Stateful.answering; try reflexivity.
  - unfold Stateful.supports.
    destruct (Stateful.m_supports this) as [f |] eqn:Hf; [| reflexivity].
    rewrite (run_quiet _ _ f config w Hsup). cbn [fst snd].
    now rewrite (with_supports_same this f Hf).
  - unfold Stateful.requiresFallback.
    destruct (Stateful.m_requiresFallback this) as [f |] eqn:Hf;
      [| reflexivity].
    rewrite (run_quiet _ _ f config w Hfb). cbn [fst snd].
    now rewrite (with_requiresFallback_same this f Hf).
  - unfold Stateful.acceptsShapes.
    destruct (Stateful.m_acceptsShape this) as [f |] eqn:Hf; [| reflexivity].
    rewrite (run_quiet _ _ f memory w Hacc). cbn [fst snd].
    now rewrite (with_acceptsShape_same this f Hf).
  - unfold Stateful.create.
    destruct (Stateful.m_create this) as [f |] eqn:Hf; [| reflexivity].
    rewrite (run_quiet _ _ f (attrs, postOps, memory, context) w Hcreate).
    cbn [fst snd].
    now rewrite (with_create_same this f Hf).
Qed.

(** Then the answers of a sequence are the answers each call gets first. *)
Lemma invokeAll_sideEffectFree :
  forall (cs : Calls) (this : SImpl) (w : World),
    Stateful.sideEffectFree this ->
    Stateful.invokeAll cs this w
    = (map (fun c => fst (fst (Stateful.invoke c this w))) cs, this, w).
Proof.
  induction cs as [| c rest IH]; intros this w Hfree.
  - reflexivity.
  - cbn [Stateful.invokeAll map].
    rewrite (invoke_sideEffectFree c this w Hfree).
    rewrite (IH this w Hfree). reflexivity.
Qed.


(** X5: when no stored target changes what it holds or the world, what a
    call answers does not depend on the calls made before it: in any
    sequence of calls, the call at position [length before] gets the answer
    it would get as the first call, and running two sequences one after the
    other gives the answers of the first followed by those of the second. *)
Theorem quiet_answers_do_not_depend_on_history :
  forall (before after : Calls)
         (c : Call Attrs Config MemoryArgs PostOps ExecutorContext)
         (this : SImpl) (w : World),
    Stateful.sideEffectFree this ->
    nth_error (fst (fst (Stateful.invokeAll (before ++ c :: after) this w)))
      (length before)
    = Some (fst (fst (Stateful.invoke c this w)))
    /\ fst (fst (Stateful.invokeAll (before ++ after) this w))
       = fst (fst (Stateful.invokeAll before this w))
         ++ fst (fst (Stateful.invokeAll after this w)).
Proof.
  intros before after c this w Hfree.
  rewrite !(invokeAll_sideEffectFree _ this w Hfree). cbn [fst]. split.
  - rewrite map_app. cbn [map].
    rewrite nth_error_app2; rewrite length_map; [| lia].
    now rewrite Nat.sub_diag.
  - apply map_app.
Qed.

(** X6: two descriptors none of whose targets changes what it holds or the
    world, with the same name, types and [shapeAgnostic()] and whose four
    capability operations agree on every argument, give the same answers to
    every sequence of calls, whatever their targets hold. *)
Theorem quiet_descriptors_agreeing_pointwise_are_indistinguishable :
  forall (d1 d2 : SImpl) (w : World),
    Stateful.sideEffectFree d1 ->
    Stateful.sideEffectFree d2 ->
    fst (fst (Stateful.name d1 w)) = fst (fst (Stateful.name d2 w)) ->
    fst (fst (Stateful.type d1 w)) = fst (fst (Stateful.type d2 w)) ->
    fst (fst (Stateful.operationType d1 w))
    = fst (fst (Stateful.operationType d2 w)) ->
    fst (fst (Stateful.shapeAgnostic d1 w))
    = fst (fst (Stateful.shapeAgnostic d2 w)) ->
    (forall config,
        fst (fst (Stateful.supports config d1 w))
        = fst (fst (Stateful.supports config d2 w))) ->
    (forall config,
        fst (fst (Stateful.requiresFallback config d1 w))
        = fst (fst (Stateful.requiresFallback config d2 w))) ->
    (forall memory,
        fst (fst (Stateful.acceptsShapes memory d1 w))
        = fst (fst (Stateful.acceptsShapes memory d2 w))) ->
    (forall attrs postOps memory context,
        fst (fst (Stateful.create attrs postOps memory context d1 w))
        = fst (fst (Stateful.create attrs postOps memory context d2 w))) ->
    forall cs : Calls,
      fst (fst (Stateful.invokeAll cs d1 w))
      = fst (fst (Stateful.invokeAll cs d2 w)).
Proof.
  intros d1 d2 w Hfree1 Hfree2 Hname Htype Hop Hshape Hsup Hfb Hacc Hcreate
    cs.
  rewrite (invokeAll_sideEffectFree cs d1 w Hfree1).
  rewrite (invokeAll_sideEffectFree cs d2 w Hfree2).
  cbn [fst]. apply map_ext. intros c.
  destruct c; unfold Stateful.invoke, Stateful.answering.
  - specialize (Hsup config).
    destruct (Stateful.supports config d1 w) as [[r1 a1] w1].
    destruct (Stateful.supports config d2 w) as [[r2 a2] w2].
    cbn [fst] in *. now subst.
  - specialize (Hfb config).
    destruct (Stateful.requiresFallback config d1 w) as [[r1 a1] w1].
    destruct (Stateful.requiresFallback config d2 w) as [[r2 a2] w2].
    cbn [fst] in *. now subst.
  - specialize (Hacc memory).
    destruct (Stateful.acceptsShapes memory d1 w) as [[r1 a1] w1].
    destruct (Stateful.acceptsShapes memory d2 w) as [[r2 a2] w2].
    cbn [fst] in *. now subst.
  - specialize (Hcreate attrs postOps memory context).
    destruct (Stateful.create attrs postOps memory context d1 w)
      as [[r1 a1] w1].
    destruct (Stateful.create attrs postOps memory context d2 w)
      as [[r2 a2] w2].
    cbn [fst] in *. now subst.
  - cbn in *. now rewrite Hshape.
  - cbn in *. now rewrite Hname.
  - cbn in *. now rewrite Htype.
  - cbn in *. now rewrite Hop.
Qed.

(** *** The descriptor over plain functions is the stateful one at plain
    targets *)

Let PImpl : Type :=
  ExecutorImplementation Attrs Config MemoryArgs PostOps ExecutorContext
    Executor ExecutorType OperationType.

Lemma ofPlain_sideEffectFree :
  forall (held : Captures) (d : PImpl),
    Stateful.sideEffectFree (ofPlain (World := World) held d).
Proof.
  intros held d. destruct d as [n t o s fs ff fa fc].
  unfold Stateful.sideEffectFree, ofPlain. cbn.
  destruct fs, ff, fa, fc; cbn; repeat split.
Qed.

(** Every call answers on [ofPlain held d] what it answers on [d], and
    leaves the descriptor and the world as they were. *)
Lemma invoke_ofPlain :
  forall (held : Captures) (d : PImpl) (w : World)
         (c : Call Attrs Config MemoryArgs PostOps ExecutorContext),
    Stateful.invoke c (ofPlain held d) w
    = (fst (invoke c d), ofPlain held d, w).
Proof.
  intros held d w c. destruct d as [n t o s fs ff fa fc].
  destruct c; unfold Stateful.invoke, Stateful.answering; cbn.
  - destruct fs; reflexivity.
  - destruct ff; reflexivity.
  - destruct fa; reflexivity.
  - destruct fc; reflexivity.
  - reflexivity.
  - reflexivity.
  - reflexivity.
  - reflexivity.
Qed.

Lemma invokeAll_ofPlain :
  forall (held : Captures) (d : PImpl) (w : World) (cs : Calls),
    Stateful.invokeAll cs (ofPlain held d) w
    = (fst (invokeAll cs d), ofPlain held d, w).
Proof.
  intros held d w cs.
  rewrite (invokeAll_sideEffectFree cs _ w (ofPlain_sideEffectFree held d)).
  rewrite invokeAll_answers. f_equal. f_equal.
  apply map_ext. intros c. now rewrite invoke_ofPlain.
Qed.

End StatefulProperties.

(** ** The stateful descriptors at work *)

(** A [supports] that counts answers [false], then [true], to the same
    config. *)
Example counting_answers :
  fst (fst (Stateful.invokeAll
              [call_supports 7; call_supports 7; call_supports 7]
              Stateful.counting 0))
  = [ret_bool false; ret_bool true; ret_bool true].
Proof. reflexivity. Qed.

(** A factory that allocates hands out another executor on each call and
    leaves the descriptor as it was: the change is in the world. *)
Example allocating_answers :
  Stateful.invokeAll [call_create 7 tt [2; 3] tt; call_create 7 tt [2; 3] tt]
    Stateful.allocating 0
  = ([ret_executor (Some "executor#0"%string);
      ret_executor (Some "executor#1"%string)],
     Stateful.allocating, 2).
Proof. reflexivity. Qed.



(** The third call of a sequence on [Stateful.constant]. *)
Lemma quiet_answers_do_not_depend_on_history_witness :
  Stateful.sideEffectFree Stateful.constant
  /\ nth_error
       (fst (fst (Stateful.invokeAll
                    ([call_create 7 tt [2; 3] tt; call_supports 7]
                     ++ call_supports 7 :: [call_name])
                    Stateful.constant 0)))
       2
     = Some (fst (fst (Stateful.invoke (call_supports 7) Stateful.constant 0))).
Proof.
  assert (Hfree : Stateful.sideEffectFree Stateful.constant).
  { unfold Stateful.sideEffectFree, Stateful.constant. cbn.
    repeat split. }
  split; [exact Hfree |].
  exact (proj1 (quiet_answers_do_not_depend_on_history
                  nat nat (list nat) unit unit string nat nat nat nat
                  [call_create 7 tt [2; 3] tt; call_supports 7] [call_name]
                  (call_supports 7) Stateful.constant 0 Hfree)).
Defined.

(** [Stateful.constant] and [Stateful.reheld] hold different captures and
    answer alike. *)
Lemma quiet_descriptors_agreeing_pointwise_are_indistinguishable_witness :
  Stateful.sideEffectFree Stateful.constant
  /\ Stateful.sideEffectFree Stateful.reheld
  /\ fst (fst (Stateful.invokeAll Stub.everyCall Stateful.constant 0))
     = fst (fst (Stateful.invokeAll Stub.everyCall Stateful.reheld 0)).
Proof.
  assert (Hfree1 : Stateful.sideEffectFree Stateful.constant).
  { unfold Stateful.sideEffectFree, Stateful.constant. cbn.
    repeat split. }
  assert (Hfree2 : Stateful.sideEffectFree Stateful.reheld).
  { unfold Stateful.sideEffectFree, Stateful.reheld. cbn.
    repeat split. }
  split; [exact Hfree1 |]. split; [exact Hfree2 |].
  exact (quiet_descriptors_agreeing_pointwise_are_indistinguishable
           nat nat (list nat) unit unit string nat nat nat nat
           Stateful.constant Stateful.reheld 0 Hfree1 Hfree2
           eq_refl eq_refl eq_refl eq_refl
           (fun _ => eq_refl) (fun _ => eq_refl) (fun _ => eq_refl)
           (fun _ _ _ _ => eq_refl)
           Stub.everyCall).
Defined.
